(** * References glue of the Open-Assistant website

    A shallow embedding of the three TypeScript units that serve the
    "fetch references" feature:

    - the Next.js API route [handler] (pages/api/references),
    - the client hook [useReferences],
    - the presentational component [ReferencesButton].

    JavaScript objects used as dictionaries ([req.query], response headers,
    React props) are finite maps; the asynchronous route body is a program in
    a small state-and-exception monad over the response object and a trace of
    the calls it makes to its collaborators. *)

From stdpp Require Import base strings list gmap.

Local Open Scope string_scope.
Local Set Warnings "-register-all".

(** ** JavaScript values *)

(** The values that cross this layer without being inspected: backend
    payloads, thrown errors, React prop values. *)
Inductive JsValue : Type :=
| JsUndefined
| JsNull
| JsBool (b : bool)
| JsNumber (n : Z)
| JsString (s : string)
| JsArray (items : list JsValue)
| JsObject (fields : list (string * JsValue))
| JsFunction (id : nat).

(** A call either returns (an awaited promise resolves) or throws (the
    promise rejects). *)
Inductive Outcome (A : Type) : Type :=
| Returns (a : A)
| Throws (e : JsValue).
Arguments Returns {A} a.
Arguments Throws {A} e.

(** ** Request and response objects *)

(** A parsed query-string entry: [string | string[]]; an absent key reads as
    [undefined], i.e. [None] on lookup. *)
Inductive QueryValue : Type :=
| QString (s : string)
| QArray (l : list string).

Record NextApiRequest : Type := {
  req_method : option string;              (* req.method : string | undefined *)
  req_query : gmap string QueryValue;      (* req.query *)
  req_cookies : gmap string string;        (* req.cookies *)
}.

(** The token handed over by the authorization wrapper; [sub] is optional in
    the JWT type. *)
Record JWT : Type := { sub : option string }.

Inductive HeaderValue : Type :=
| HeaderString (s : string)
| HeaderList (l : list string).

Inductive Body : Type :=
| BodyText (s : string)        (* res.end(text) *)
| BodyJson (v : JsValue).      (* res.json(value) *)

Record NextApiResponse : Type := {
  statusCode : nat;
  headers : gmap string HeaderValue;
  sent : option Body;            (* [None] until the response is sent *)
}.

(** The response object the framework passes in: nothing sent yet, Node's
    default status code. *)
Definition new_response : NextApiResponse :=
  {| statusCode := 200; headers := ∅; sent := None |}.

(** ** The route *)

Section Route.
(** A backend user record and a backend API client are opaque here. *)
Context {User Client : Type}.

(** The imported collaborators. None of them is called more than once per
    request, so each is a function from its arguments to what that one
    call does. *)
Record Collaborators : Type := {
  getLanguageFromRequest : NextApiRequest → Outcome string;
  getBackendUserCore : option string → Outcome User;
  createApiClientFromUser : User → Outcome Client;
  fetchReferences : Client → string → string → Outcome JsValue;
}.

(** What the handler does besides writing the response. *)
Inductive Event : Type :=
| ConsoleLog (label : string) (arg : JsValue)
| CallGetLanguageFromRequest (req : NextApiRequest)
| CallGetBackendUserCore (id : option string)
| CallCreateApiClientFromUser (user : User)
| CallFetchReferences (client : Client) (query lang : string).

(** The state threaded through the handler: the response object and the
    trace so far (oldest event first). *)
Record HState : Type := { res : NextApiResponse; trace : list Event }.

Definition Run (A : Type) : Type := HState → Outcome A * HState.

Definition run_ret {A} (a : A) : Run A := λ st, (Returns a, st).

Definition run_bind {A B} (m : Run A) (k : A → Run B) : Run B :=
  λ st, match m st with
        | (Returns a, st') => k a st'
        | (Throws e, st') => (Throws e, st')
        end.

(** [try { body } catch (err) { handle err }] *)
Definition try_catch {A} (body : Run A) (handle : JsValue → Run A) : Run A :=
  λ st, match body st with
        | (Returns a, st') => (Returns a, st')
        | (Throws e, st') => handle e st'
        end.

Definition emit (ev : Event) : Run () :=
  λ st, (Returns (), {| res := res st; trace := trace st ++ [ev] |}).

Definition update_res (f : NextApiResponse → NextApiResponse) : Run () :=
  λ st, (Returns (), {| res := f (res st); trace := trace st |}).

(** Calling a collaborator: the call is recorded, then it returns or
    throws. *)
Definition call {A} (ev : Event) (o : Outcome A) : Run A :=
  λ st, (o, {| res := res st; trace := trace st ++ [ev] |}).

(** [res.setHeader(name, value)] *)
Definition setHeader (name : string) (value : HeaderValue) : Run () :=
  update_res (λ r, {| statusCode := statusCode r;
                      headers := <[name := value]> (headers r);
                      sent := sent r |}).

(** [res.status(code)] *)
Definition status (code : nat) : Run () :=
  update_res (λ r, {| statusCode := code; headers := headers r; sent := sent r |}).

(** [res.end(text)] *)
Definition end_ (text : string) : Run () :=
  update_res (λ r, {| statusCode := statusCode r; headers := headers r;
                      sent := Some (BodyText text) |}).

(** [res.json(value)] *)
Definition json (value : JsValue) : Run () :=
  update_res (λ r, {| statusCode := statusCode r; headers := headers r;
                      sent := Some (BodyJson value) |}).

(** [console.log(label, arg)] *)
Definition console_log (label : string) (arg : JsValue) : Run () :=
  emit (ConsoleLog label arg).
End Route.

Arguments Collaborators : clear implicits.
Arguments Event : clear implicits.
Arguments HState : clear implicits.
Arguments Run : clear implicits.

(** The handler is written with stdpp's monad notations [x ← m; k] and
    [m;; k]. *)
#[global] Instance run_mret {User Client} : MRet (Run User Client) :=
  λ A, @run_ret User Client A.
#[global] Instance run_mbind {User Client} : MBind (Run User Client) :=
  λ A B k m, @run_bind User Client A B m k.

(** [`${m}`] for [m : string | undefined]. *)
Definition template_string (m : option string) : string :=
  match m with
  | Some s => s
  | None => "undefined"
  end.

(** The query entry as a JavaScript value (for logging). *)
Definition query_to_js (q : option QueryValue) : JsValue :=
  match q with
  | None => JsUndefined
  | Some (QString s) => JsString s
  | Some (QArray l) => JsArray (JsString <$> l)
  end.

(** Truthiness of [string | string[] | undefined]: [undefined] and the empty
    string are falsy, every array is truthy. *)
Definition query_truthy (q : option QueryValue) : bool :=
  match q with
  | None => false
  | Some (QString s) => bool_decide (s ≠ "")
  | Some (QArray _) => true
  end.

(** [typeof q]. *)
Definition query_typeof (q : option QueryValue) : string :=
  match q with
  | None => "undefined"
  | Some (QString _) => "string"
  | Some (QArray _) => "object"
  end.

(** The value of [q] once the type guard has narrowed it to [string]. *)
Definition query_string (q : option QueryValue) : string :=
  match q with
  | Some (QString s) => s
  | _ => ""
  end.

Section Handler.
Context {User Client : Type}.

(** The asynchronous function that the route passes to
    [withoutRole("banned", ...)]. The wrapper lives in src/lib/auth; it
    decides whether this function runs at all and supplies [token]. The
    value the function returns is never used, so it is [()]; a rejected
    promise is [Throws]. *)
Definition handler (w : Collaborators User Client)
    (req : NextApiRequest) (token : JWT) : Run User Client () :=
  if bool_decide (req_method req ≠ Some "GET") then
    setHeader "Allow" (HeaderList ["GET"]);;
    status 405;;
    end_ ("Method " +:+ template_string (req_method req) +:+ " Not Allowed")
  else
    let query := req_query req !! "query" in
    console_log "nextJS references: query" (query_to_js query);;
    if negb (query_truthy query) || bool_decide (query_typeof query ≠ "string") then
      status 400;;
      json (JsObject [("error", JsString "Query parameter is required")])
    else
      let query := query_string query in
      lang ← call (CallGetLanguageFromRequest req) (getLanguageFromRequest w req);
      user ← call (CallGetBackendUserCore (sub token)) (getBackendUserCore w (sub token));
      oasstApiClient ← call (CallCreateApiClientFromUser user)
                             (createApiClientFromUser w user);
      try_catch
        (references ← call (CallFetchReferences oasstApiClient query lang)
                            (fetchReferences w oasstApiClient query lang);
         console_log "nextJS references" references;;
         status 200;;
         json references)
        (λ err,
           status 500;;
           json (JsObject [("error", JsString "Failed to fetch references")])).

(** One invocation of the route body on a fresh response. *)
Definition run_handler (w : Collaborators User Client)
    (req : NextApiRequest) (token : JWT) : Outcome () * HState User Client :=
  handler w req token {| res := new_response; trace := [] |}.

(** The event left by [console.log("nextJS references: query", query)]. *)
Definition query_log (req : NextApiRequest) : Event User Client :=
  ConsoleLog "nextJS references: query" (query_to_js (req_query req !! "query")).

Definition is_backend_call (ev : Event User Client) : bool :=
  match ev with
  | CallGetBackendUserCore _ | CallCreateApiClientFromUser _
  | CallFetchReferences _ _ _ => true
  | _ => false
  end.

(** The [fetchReferences] invocations of a trace, with their receiver and
    arguments. *)
Definition fetch_calls (tr : list (Event User Client)) : list (Client * string * string) :=
  omap (λ ev, match ev with
              | CallFetchReferences c q l => Some (c, q, l)
              | _ => None
              end) tr.
End Handler.

(** ** The client hook *)

(** What a caller may pass as [query]: the parameter is untyped; the
    primitive values below are the ones whose truthiness and template-literal
    rendering are modelled. *)
Inductive Primitive : Type :=
| PUndefined
| PNull
| PBool (b : bool)
| PString (s : string).

(** [ToBoolean]: used by [query ? ... : null]. *)
Definition to_boolean (v : Primitive) : bool :=
  match v with
  | PUndefined | PNull => false
  | PBool b => b
  | PString s => bool_decide (s ≠ "")
  end.

(** [ToString]: used by [`${query}`]. *)
Definition to_string (v : Primitive) : string :=
  match v with
  | PUndefined => "undefined"
  | PNull => "null"
  | PBool true => "true"
  | PBool false => "false"
  | PString s => s
  end.

(** The fetcher imported from src/lib/api. *)
Inductive Fetcher : Type := get.

Record SWRConfiguration : Type := { shouldRetryOnError : bool }.

(** The three arguments of a [useSWR] call. *)
Record SWRCall : Type := {
  swr_key : option string;         (* [None] is the [null] key *)
  swr_fetcher : Fetcher;
  swr_config : SWRConfiguration;
}.

Record SWRResponse : Type := {
  data : JsValue;
  error : JsValue;
  isValidating : bool;
  mutate : JsValue;
}.

Record References : Type := {
  references : JsValue;
  isLoading : bool;
  isError : JsValue;
  refreshReferences : JsValue;
}.

(** What a render of the hook does besides returning: the hooks it calls
    with observable arguments, and its console output. *)
Inductive HookEvent : Type :=
| UseSWR (c : SWRCall)
| HookLog (label : string) (arg : Primitive).

Section Hook.
(** What [useCurrentLocale()] returns in this render, and the [useSWR]
    hook of the caching library. *)
Variable useCurrentLocale : string.
Variable useSWR : SWRCall → SWRResponse.

Definition useReferences (query : Primitive) : References * list HookEvent :=
  let locale := useCurrentLocale in
  let c := {| swr_key := if to_boolean query
                         then Some ("/api/references?query=" +:+ to_string query
                                    +:+ "&lang=" +:+ locale)
                         else None;
              swr_fetcher := get;
              swr_config := {| shouldRetryOnError := false |} |} in
  let r := useSWR c in
  ({| references := data r;
      isLoading := isValidating r;
      isError := error r;
      refreshReferences := mutate r |},
   [UseSWR c; HookLog "using useReferences, query is: " query]).
End Hook.

(** Modelled from the spec: the caching library behind [useSWR] is not part
    of the repository. With a null key it performs no fetch; with a key it
    requests that key through the fetcher it was given. *)
Definition swr_fetches (c : SWRCall) : list (Fetcher * string) :=
  match swr_key c with
  | None => []
  | Some key => [(swr_fetcher c, key)]
  end.

(** The [useSWR] calls of a render, and the fetches they lead to. *)
Definition swr_calls (evs : list HookEvent) : list SWRCall :=
  omap (λ ev, match ev with UseSWR c => Some c | _ => None end) evs.

Definition hook_fetches (evs : list HookEvent) : list (Fetcher * string) :=
  swr_calls evs ≫= swr_fetches.

(** ** The button *)

(** A rendered element: the component it instantiates and the props it
    passes. *)
Record ReactElement : Type := {
  element_type : string;
  element_props : gmap string JsValue;
}.

(** Reading a property of a props object: an absent key is [undefined]. *)
Definition prop (p : gmap string JsValue) (key : string) : JsValue :=
  default JsUndefined (p !! key).

(** [({ children, onClick, ...props }) =>
      <Button size="lg" variant="solid" onClick={onClick} {...props}>{children}</Button>]:
    in the props object of the element a later attribute wins, so the spread
    rest overrides the three attributes written before it. *)
Definition ReferencesButton (p : gmap string JsValue) : ReactElement :=
  let children := prop p "children" in
  let onClick := prop p "onClick" in
  let props := delete "onClick" (delete "children" p) in
  {| element_type := "Button";
     element_props :=
       <["children" := children]>
         (props ∪ <["onClick" := onClick]>
                    (<["variant" := JsString "solid"]>
                       (<["size" := JsString "lg"]> ∅))) |}.

(** ** Sample inputs *)

(** A backend whose user lookup fails. *)
Definition no_user_backend : Collaborators nat nat :=
  {| getLanguageFromRequest := λ _, Returns "en";
     getBackendUserCore := λ _, Throws (JsString "user not found");
     createApiClientFromUser := λ u, Returns u;
     fetchReferences := λ _ _ _, Returns JsNull |}.

(** A backend whose client factory fails. *)
Definition no_client_backend : Collaborators nat nat :=
  {| getLanguageFromRequest := λ _, Returns "en";
     getBackendUserCore := λ _, Returns 7;
     createApiClientFromUser := λ _, Throws (JsString "no api key");
     fetchReferences := λ _ _ _, Returns JsNull |}.

(** A backend that answers every query with the same two references. *)
Definition sample_references : JsValue :=
  JsArray [JsObject [("title", JsString "Rocq"); ("year", JsNumber 2025)];
           JsString "stdpp"].

Definition good_backend : Collaborators nat nat :=
  {| getLanguageFromRequest := λ _, Returns "de";
     getBackendUserCore := λ _, Returns 7;
     createApiClientFromUser := λ u, Returns (u + 1);
     fetchReferences := λ _ _ _, Returns sample_references |}.

(** A backend whose reference search fails. *)
Definition failing_backend : Collaborators nat nat :=
  {| getLanguageFromRequest := λ _, Returns "de";
     getBackendUserCore := λ _, Returns 7;
     createApiClientFromUser := λ u, Returns (u + 1);
     fetchReferences := λ _ _ _, Throws (JsString "connect ECONNREFUSED") |}.

Definition sample_token : JWT := {| sub := Some "user-1" |}.

Definition get_request (q : gmap string QueryValue) : NextApiRequest :=
  {| req_method := Some "GET"; req_query := q; req_cookies := ∅ |}.

Definition post_request : NextApiRequest :=
  {| req_method := Some "POST";
     req_query := {["query" := QString "proof assistants"]};
     req_cookies := ∅ |}.

Definition valid_request : NextApiRequest :=
  get_request {["query" := QString "proof assistants"]}.

(** A backend for a request whose language cannot be derived. *)
Definition no_language_backend : Collaborators nat nat :=
  {| getLanguageFromRequest := λ _, Throws (JsString "unsupported locale");
     getBackendUserCore := λ _, Returns 7;
     createApiClientFromUser := λ u, Returns (u + 1);
     fetchReferences := λ _ _ _, Returns sample_references |}.

(** A [useSWR] that has nothing cached and nothing in flight. *)
Definition idle_swr : SWRCall → SWRResponse :=
  λ _, {| data := JsUndefined; error := JsUndefined;
          isValidating := false; mutate := JsFunction 0 |}.

(** Props of a small button with a click handler and a label. *)
Definition small_button_props : gmap string JsValue :=
  {["size" := JsString "sm"; "onClick" := JsFunction 3;
    "children" := JsString "References"; "colorScheme" := JsString "blue"]}.

(** ** Reading a run *)




(** The [query] parameter that the route accepts: a non-empty string. *)
Definition accepted_query (req : NextApiRequest) (q : string) : Prop :=
  req_query req !! "query" = Some (QString q) ∧ q ≠ "".

(** * Properties *)

(** ** Stepping the handler monad *)

Section Steps.
Context {User Client : Type}.
Implicit Types (st : HState User Client) (ev : Event User Client).

Lemma step_update_res {B} f (k : () → Run User Client B) st :
  (update_res f ≫= k) st = k () {| res := f (res st); trace := trace st |}.
Proof. reflexivity. Qed.

Lemma step_console_log {B} label arg (k : () → Run User Client B) st :
  (console_log label arg ≫= k) st
  = k () {| res := res st; trace := trace st ++ [ConsoleLog label arg] |}.
Proof. reflexivity. Qed.

Lemma step_call_returns {A B} ev (o : Outcome A) a (k : A → Run User Client B) st :
  o = Returns a →
  (call ev o ≫= k) st = k a {| res := res st; trace := trace st ++ [ev] |}.
Proof. intros ->. reflexivity. Qed.

Lemma step_call_throws {A B} ev (o : Outcome A) e (k : A → Run User Client B) st :
  o = Throws e →
  (call ev o ≫= k) st = (Throws e, {| res := res st; trace := trace st ++ [ev] |}).
Proof. intros ->. reflexivity. Qed.

Lemma step_try_returns {A} (body : Run User Client A) handle st a st' :
  body st = (Returns a, st') → try_catch body handle st = (Returns a, st').
Proof. unfold try_catch. intros ->. reflexivity. Qed.

Lemma step_try_throws {A} (body : Run User Client A) handle st e st' :
  body st = (Throws e, st') → try_catch body handle st = handle e st'.
Proof. unfold try_catch. intros ->. reflexivity. Qed.

(** The guard of line 21 lets exactly the non-empty strings through. *)
Lemma query_guard_passes (q : option QueryValue) :
  negb (query_truthy q) || bool_decide (query_typeof q ≠ "string") = false
  ↔ ∃ s, q = Some (QString s) ∧ s ≠ "".
Proof.
  split.
  - destruct q as [[s|l]|]; simpl.
    + rewrite orb_false_r, negb_false_iff, bool_decide_eq_true.
      intros Hs. by exists s.
    + intros [=].
    + intros [=].
  - intros (s & -> & Hs). simpl.
    rewrite orb_false_r, negb_false_iff. by apply bool_decide_eq_true.
Qed.

(** The route body from the collaborator calls on, for a request that
    passed both guards. *)
Lemma handler_valid (w : Collaborators User Client) req token q st :
  req_method req = Some "GET" →
  req_query req !! "query" = Some (QString q) →
  q ≠ "" →
  handler w req token st
  = (lang ← call (CallGetLanguageFromRequest req) (getLanguageFromRequest w req);
     user ← call (CallGetBackendUserCore (sub token)) (getBackendUserCore w (sub token));
     oasstApiClient ← call (CallCreateApiClientFromUser user)
                            (createApiClientFromUser w user);
     try_catch
       (references ← call (CallFetchReferences oasstApiClient q lang)
                           (fetchReferences w oasstApiClient q lang);
        console_log "nextJS references" references;;
        status 200;;
        json references)
       (λ err,
          status 500;;
          json (JsObject [("error", JsString "Failed to fetch references")])))
      {| res := res st;
         trace := trace st ++ [ConsoleLog "nextJS references: query" (JsString q)] |}.
Proof.
  intros Hm Hq Hne. unfold handler.
  rewrite bool_decide_eq_false_2 by (by rewrite Hm; intros []).
  rewrite step_console_log, Hq.
  assert (negb (query_truthy (Some (QString q)))
          || bool_decide (query_typeof (Some (QString q)) ≠ "string") = false) as ->
    by (apply query_guard_passes; eauto).
  reflexivity.
Qed.

(** The complete behaviour of one invocation, by the guard that fires and
    by what each collaborator does. *)

Lemma run_not_get (w : Collaborators User Client) req token :
  req_method req ≠ Some "GET" →
  run_handler w req token
  = (Returns (),
     {| res := {| statusCode := 405;
                  headers := {["Allow" := HeaderList ["GET"]]};
                  sent := Some (BodyText ("Method " +:+ template_string (req_method req)
                                          +:+ " Not Allowed")) |};
        trace := [] |}).
Proof.
  intros Hm. unfold run_handler, handler.
  rewrite bool_decide_eq_true_2 by done.
  unfold setHeader, status, end_. rewrite !step_update_res.
  unfold update_res, new_response. cbn [res trace statusCode headers sent].
  by rewrite insert_empty.
Qed.

Lemma run_bad_query (w : Collaborators User Client) req token :
  req_method req = Some "GET" →
  (∀ s, req_query req !! "query" = Some (QString s) → s = "") →
  run_handler w req token
  = (Returns (),
     {| res := {| statusCode := 400;
                  headers := ∅;
                  sent := Some (BodyJson
                                  (JsObject [("error",
                                              JsString "Query parameter is required")])) |};
        trace := [query_log req] |}).
Proof.
  intros Hm Hq. unfold run_handler, handler.
  rewrite bool_decide_eq_false_2 by (by rewrite Hm; intros []).
  rewrite step_console_log.
  destruct (negb (query_truthy (req_query req !! "query"))
            || bool_decide (query_typeof (req_query req !! "query") ≠ "string"))
    eqn:Hguard.
  - reflexivity.
  - apply query_guard_passes in Hguard as (s & Hs & Hne).
    by destruct Hne; apply Hq.
Qed.

Lemma run_valid (w : Collaborators User Client) req token q :
  req_method req = Some "GET" →
  req_query req !! "query" = Some (QString q) →
  q ≠ "" →
  run_handler w req token
  = match getLanguageFromRequest w req with
    | Throws e =>
        (Throws e,
         {| res := new_response;
            trace := [query_log req; CallGetLanguageFromRequest req] |})
    | Returns lang =>
        match getBackendUserCore w (sub token) with
        | Throws e =>
            (Throws e,
             {| res := new_response;
                trace := [query_log req; CallGetLanguageFromRequest req;
                          CallGetBackendUserCore (sub token)] |})
        | Returns user =>
            match createApiClientFromUser w user with
            | Throws e =>
                (Throws e,
                 {| res := new_response;
                    trace := [query_log req; CallGetLanguageFromRequest req;
                              CallGetBackendUserCore (sub token);
                              CallCreateApiClientFromUser user] |})
            | Returns client =>
                match fetchReferences w client q lang with
                | Returns references =>
                    (Returns (),
                     {| res := {| statusCode := 200; headers := ∅;
                                  sent := Some (BodyJson references) |};
                        trace := [query_log req; CallGetLanguageFromRequest req;
                                  CallGetBackendUserCore (sub token);
                                  CallCreateApiClientFromUser user;
                                  CallFetchReferences client q lang;
                                  ConsoleLog "nextJS references" references] |})
                | Throws _ =>
                    (Returns (),
                     {| res := {| statusCode := 500; headers := ∅;
                                  sent := Some (BodyJson
                                                  (JsObject
                                                     [("error",
                                                       JsString "Failed to fetch references")])) |};
                        trace := [query_log req; CallGetLanguageFromRequest req;
                                  CallGetBackendUserCore (sub token);
                                  CallCreateApiClientFromUser user;
                                  CallFetchReferences client q lang] |})
                end
            end
        end
    end.
Proof.
  intros Hm Hq Hne. unfold run_handler, query_log.
  rewrite (handler_valid w req token q) by done. rewrite Hq.
  cbn [res trace app query_to_js].
  destruct (getLanguageFromRequest w req) as [lang|e] eqn:Hlang;
    [erewrite step_call_returns by done | by erewrite step_call_throws].
  destruct (getBackendUserCore w (sub token)) as [user|e] eqn:Huser;
    [erewrite step_call_returns by done | by erewrite step_call_throws].
  destruct (createApiClientFromUser w user) as [client|e] eqn:Hclient;
    [erewrite step_call_returns by done | by erewrite step_call_throws].
  cbn [res trace app].
  destruct (fetchReferences w client q lang) as [references|e] eqn:Hfetch.
  - erewrite step_try_returns; [reflexivity|].
    erewrite step_call_returns by done. reflexivity.
  - erewrite step_try_throws; [|by erewrite step_call_throws]. reflexivity.
Qed.
End Steps.

(** ** The route *)

Section RouteProperties.
Context {User Client : Type}.
Implicit Types (w : Collaborators User Client) (req : NextApiRequest) (token : JWT).

(** C1. A request whose method is not GET (whatever its query parameters,
    its token and the collaborators) gets status 405, the text body
    "Method <method> Not Allowed" and the header Allow: [GET]; nothing else
    happens. An undefined method is rendered as "undefined". *)
Theorem handler_method_not_allowed w req token :
  req_method req ≠ Some "GET" →
  run_handler w req token
  = (Returns (),
     {| res := {| statusCode := 405;
                  headers := {["Allow" := HeaderList ["GET"]]};
                  sent := Some (BodyText ("Method " +:+ template_string (req_method req)
                                          +:+ " Not Allowed")) |};
        trace := [] |}).
Proof. apply run_not_get. Qed.

(** C2. A GET request whose [query] is missing, is an array, or is the
    empty string gets status 400 with the body
    {"error": "Query parameter is required"}; the result of the run is fully
    determined, so no other status is possible. *)
Theorem handler_query_required w req token :
  req_method req = Some "GET" →
  req_query req !! "query" = None
  ∨ (∃ l, req_query req !! "query" = Some (QArray l))
  ∨ req_query req !! "query" = Some (QString "") →
  run_handler w req token
  = (Returns (),
     {| res := {| statusCode := 400;
                  headers := ∅;
                  sent := Some (BodyJson
                                  (JsObject [("error",
                                              JsString "Query parameter is required")])) |};
        trace := [query_log req] |}).
Proof.
  intros Hm Hq. apply run_bad_query; [done|].
  intros s Hs. destruct Hq as [Hq|[[l Hq]|Hq]]; congruence.
Qed.

(** C3. A GET request with a non-empty string [query], for which the
    [fetchReferences] call (made on the client built for the resolved user,
    with the query and the request's language) resolves with [D], gets
    status 200 with the JSON body [D] itself. *)
Theorem handler_forwards_references w req token q lang user client D :
  req_method req = Some "GET" →
  req_query req !! "query" = Some (QString q) →
  q ≠ "" →
  getLanguageFromRequest w req = Returns lang →
  getBackendUserCore w (sub token) = Returns user →
  createApiClientFromUser w user = Returns client →
  fetchReferences w client q lang = Returns D →
  (run_handler w req token).1 = Returns ()
  ∧ res (run_handler w req token).2
    = {| statusCode := 200; headers := ∅; sent := Some (BodyJson D) |}.
Proof.
  intros Hm Hq Hne Hlang Huser Hclient Hfetch.
  rewrite (run_valid w req token q) by done.
  by rewrite Hlang, Huser, Hclient, Hfetch.
Qed.

(** C4. A GET request with a non-empty string [query], for which the
    [fetchReferences] call throws [e], gets status 500 with the fixed body
    {"error": "Failed to fetch references"}, whatever [e] is; the handler
    itself completes normally. *)
Theorem handler_hides_fetch_error w req token q lang user client e :
  req_method req = Some "GET" →
  req_query req !! "query" = Some (QString q) →
  q ≠ "" →
  getLanguageFromRequest w req = Returns lang →
  getBackendUserCore w (sub token) = Returns user →
  createApiClientFromUser w user = Returns client →
  fetchReferences w client q lang = Throws e →
  (run_handler w req token).1 = Returns ()
  ∧ res (run_handler w req token).2
    = {| statusCode := 500; headers := ∅;
         sent := Some (BodyJson
                         (JsObject [("error",
                                     JsString "Failed to fetch references")])) |}.
Proof.
  intros Hm Hq Hne Hlang Huser Hclient Hfetch.
  rewrite (run_valid w req token q) by done.
  by rewrite Hlang, Huser, Hclient, Hfetch.
Qed.

(** C5, amended. A GET request with a non-empty string [query], for which
    [getLanguageFromRequest], [getBackendUserCore(token.sub)] and
    [createApiClientFromUser] return normally, makes exactly one
    [fetchReferences] call: on the client built from the user resolved from
    the token subject, with the request's query string and language. *)
Theorem handler_fetches_once w req token q lang user client :
  req_method req = Some "GET" →
  req_query req !! "query" = Some (QString q) →
  q ≠ "" →
  getLanguageFromRequest w req = Returns lang →
  getBackendUserCore w (sub token) = Returns user →
  createApiClientFromUser w user = Returns client →
  fetch_calls (trace (run_handler w req token).2) = [(client, q, lang)].
Proof.
  intros Hm Hq Hne Hlang Huser Hclient.
  rewrite (run_valid w req token q) by done.
  rewrite Hlang, Huser, Hclient.
  by destruct (fetchReferences w client q lang).
Qed.

(** C8. When [getBackendUserCore] or [createApiClientFromUser] throws [e]
    (on a GET request with a non-empty string [query] whose language was
    derived), the handler rejects with [e]: the response object is left as
    it was handed in (no status set, nothing sent) and [fetchReferences] is
    not called. *)
Theorem handler_propagates_setup_error w req token q lang e :
  req_method req = Some "GET" →
  req_query req !! "query" = Some (QString q) →
  q ≠ "" →
  getLanguageFromRequest w req = Returns lang →
  getBackendUserCore w (sub token) = Throws e
  ∨ (∃ user, getBackendUserCore w (sub token) = Returns user
             ∧ createApiClientFromUser w user = Throws e) →
  (run_handler w req token).1 = Throws e
  ∧ res (run_handler w req token).2 = new_response
  ∧ fetch_calls (trace (run_handler w req token).2) = [].
Proof.
  intros Hm Hq Hne Hlang Hthrow.
  rewrite (run_valid w req token q) by done. rewrite Hlang.
  destruct Hthrow as [Huser|(user & Huser & Hclient)].
  - by rewrite Huser.
  - by rewrite Huser, Hclient.
Qed.

(** C9. If the run ends with status 405 or 400, its trace has no backend
    call: no [getBackendUserCore], no [createApiClientFromUser], no
    [fetchReferences]. *)
Theorem handler_client_error_no_backend w req token :
  statusCode (res (run_handler w req token).2) = 405
  ∨ statusCode (res (run_handler w req token).2) = 400 →
  Forall (λ ev, is_backend_call ev = false) (trace (run_handler w req token).2).
Proof.
  destruct (decide (req_method req = Some "GET")) as [Hm|Hm].
  - destruct (req_query req !! "query") as [[q|l]|] eqn:Hq.
    + destruct (decide (q = "")) as [->|Hne].
      * intros _. rewrite run_bad_query by (done || congruence).
        by repeat constructor.
      * rewrite (run_valid w req token q) by done.
        destruct (getLanguageFromRequest w req); [|intros [[=]|[=]]].
        destruct (getBackendUserCore w (sub token)); [|intros [[=]|[=]]].
        destruct (createApiClientFromUser w _); [|intros [[=]|[=]]].
        destruct (fetchReferences w _ q _); intros [[=]|[=]].
    + intros _. rewrite run_bad_query by (done || congruence).
      by repeat constructor.
    + intros _. rewrite run_bad_query by (done || congruence).
      by repeat constructor.
  - intros _. rewrite run_not_get by done. constructor.
Qed.
End RouteProperties.

(** ** The hook *)

(** The falsy values among the modelled ones. *)
Lemma to_boolean_false (query : Primitive) :
  to_boolean query = false
  ↔ query = PUndefined ∨ query = PNull ∨ query = PBool false ∨ query = PString "".
Proof.
  split.
  - destruct query as [| |[]|s]; simpl; try discriminate; eauto.
    rewrite bool_decide_eq_false. intros Hs.
    destruct (decide (s = "")) as [->|]; [eauto 10|done].
  - intros [-> | [-> | [-> | ->]]]; reflexivity.
Qed.

(** C6. For a falsy [query] (undefined, null, false or the empty string) the
    hook passes the null key to [useSWR], and no fetch follows; for a
    non-empty string [s] (and likewise for [true]) it passes the key
    /api/references?query=<s>&lang=<locale>, with [locale] the current locale,
    and that key is fetched through [get]. *)
Theorem useReferences_key (locale : string) (useSWR : SWRCall → SWRResponse)
    (query : Primitive) :
  (query = PUndefined ∨ query = PNull ∨ query = PBool false ∨ query = PString "" →
   swr_key <$> swr_calls (useReferences locale useSWR query).2 = [None]
   ∧ hook_fetches (useReferences locale useSWR query).2 = [])
  ∧ (∀ s, query = PString s ∧ s ≠ "" ∨ query = PBool true ∧ s = "true" →
     swr_key <$> swr_calls (useReferences locale useSWR query).2
     = [Some ("/api/references?query=" +:+ s +:+ "&lang=" +:+ locale)]
     ∧ hook_fetches (useReferences locale useSWR query).2
       = [(get, "/api/references?query=" +:+ s +:+ "&lang=" +:+ locale)]).
Proof.
  unfold hook_fetches, swr_fetches, useReferences. cbn [snd swr_calls omap].
  split.
  - intros Hfalsy%to_boolean_false. by rewrite Hfalsy.
  - intros s [[-> Hs]|[-> ->]]; cbn [to_boolean to_string].
    + by rewrite bool_decide_eq_true_2.
    + done.
Qed.

(** C7. For one truthy [query] and two distinct locales the hook passes two
    distinct keys to [useSWR], and each is fetched on its own. *)
Theorem useReferences_key_per_locale (useSWR : SWRCall → SWRResponse)
    (query : Primitive) (locale1 locale2 : string) :
  to_boolean query = true →
  locale1 ≠ locale2 →
  ∃ key1 key2,
    swr_key <$> swr_calls (useReferences locale1 useSWR query).2 = [Some key1]
    ∧ swr_key <$> swr_calls (useReferences locale2 useSWR query).2 = [Some key2]
    ∧ key1 ≠ key2
    ∧ hook_fetches (useReferences locale1 useSWR query).2 = [(get, key1)]
    ∧ hook_fetches (useReferences locale2 useSWR query).2 = [(get, key2)].
Proof.
  intros Htruthy Hlocale.
  unfold hook_fetches, swr_fetches, useReferences. cbn [snd swr_calls omap].
  rewrite Htruthy. do 2 eexists. repeat split; try reflexivity.
  intros Heq. apply Hlocale.
  by do 3 apply String.app_inj in Heq.
Qed.

(** ** The button *)

(** C10. [ReferencesButton] renders a [Button] whose [onClick] is the
    caller's [onClick]; [size] and [variant] are the caller's when supplied
    and "lg" and "solid" otherwise; [children] are passed on, and so is every
    other prop. The element depends on the props alone. *)
Theorem ReferencesButton_props (p : gmap string JsValue) :
  element_type (ReferencesButton p) = "Button"
  ∧ element_props (ReferencesButton p) !! "onClick" = Some (prop p "onClick")
  ∧ element_props (ReferencesButton p) !! "size"
    = Some (default (JsString "lg") (p !! "size"))
  ∧ element_props (ReferencesButton p) !! "variant"
    = Some (default (JsString "solid") (p !! "variant"))
  ∧ element_props (ReferencesButton p) !! "children" = Some (prop p "children")
  ∧ ∀ key, key ∉ ["children"; "onClick"; "size"; "variant"] →
           element_props (ReferencesButton p) !! key = p !! key.
Proof.
  unfold ReferencesButton. cbn [element_type element_props].
  split_and!.
  - reflexivity.
  - rewrite lookup_insert_ne by done.
    rewrite lookup_union_r by apply lookup_delete_eq.
    apply lookup_insert_eq.
  - rewrite lookup_insert_ne by done.
    rewrite lookup_union, !lookup_delete_ne by done.
    rewrite lookup_insert_ne, lookup_insert_ne, lookup_insert_eq by done.
    by destruct (p !! "size").
  - rewrite lookup_insert_ne by done.
    rewrite lookup_union, !lookup_delete_ne by done.
    rewrite lookup_insert_ne, lookup_insert_eq by done.
    by destruct (p !! "variant").
  - apply lookup_insert_eq.
  - intros key Hkey.
    rewrite !not_elem_of_cons in Hkey. destruct Hkey as (? & ? & ? & ? & _).
    rewrite lookup_insert_ne by done.
    rewrite lookup_union, !lookup_delete_ne by done.
    rewrite !lookup_insert_ne, lookup_empty by done.
    by destruct (p !! key).
Qed.

(** ** The properties at sample inputs *)

Lemma handler_method_not_allowed_witness :
  req_method post_request ≠ Some "GET"
  ∧ run_handler good_backend post_request sample_token
    = (Returns (),
       {| res := {| statusCode := 405;
                    headers := {["Allow" := HeaderList ["GET"]]};
                    sent := Some (BodyText "Method POST Not Allowed") |};
          trace := [] |}).
Proof.
  assert (req_method post_request ≠ Some "GET") as Hm by discriminate.
  split; [exact Hm|].
  exact (handler_method_not_allowed good_backend post_request sample_token Hm).
Defined.

Lemma handler_query_required_witness :
  statusCode
    (res (run_handler good_backend
            (get_request {["query" := QArray ["a"; "b"]]}) sample_token).2) = 400.
Proof.
  rewrite (handler_query_required good_backend
             (get_request {["query" := QArray ["a"; "b"]]}) sample_token).
  - reflexivity.
  - reflexivity.
  - right; left. exists ["a"; "b"]. reflexivity.
Defined.

Lemma handler_forwards_references_witness :
  (run_handler good_backend valid_request sample_token).1 = Returns ()
  ∧ res (run_handler good_backend valid_request sample_token).2
    = {| statusCode := 200; headers := ∅; sent := Some (BodyJson sample_references) |}.
Proof.
  apply (handler_forwards_references good_backend valid_request sample_token
           "proof assistants" "de" 7 8 sample_references);
    reflexivity || discriminate.
Defined.

Lemma handler_hides_fetch_error_witness :
  (run_handler failing_backend valid_request sample_token).1 = Returns ()
  ∧ res (run_handler failing_backend valid_request sample_token).2
    = {| statusCode := 500; headers := ∅;
         sent := Some (BodyJson
                         (JsObject [("error", JsString "Failed to fetch references")])) |}.
Proof.
  apply (handler_hides_fetch_error failing_backend valid_request sample_token
           "proof assistants" "de" 7 8 (JsString "connect ECONNREFUSED"));
    reflexivity || discriminate.
Defined.

Lemma handler_fetches_once_witness :
  fetch_calls (trace (run_handler good_backend valid_request sample_token).2)
  = [(8, "proof assistants", "de")].
Proof.
  apply (handler_fetches_once good_backend valid_request sample_token
           "proof assistants" "de" 7 8);
    reflexivity || discriminate.
Defined.

(** C5 as stated fails: a GET request with a valid query whose user lookup
    throws makes no [fetchReferences] call at all. *)
Lemma handler_fetches_once_counterexample :
  req_method valid_request = Some "GET"
  ∧ req_query valid_request !! "query" = Some (QString "proof assistants")
  ∧ "proof assistants" ≠ ""
  ∧ fetch_calls (trace (run_handler no_user_backend valid_request sample_token).2) = [].
Proof. split_and!; reflexivity || discriminate. Qed.

Lemma handler_propagates_setup_error_witness :
  (run_handler no_client_backend valid_request sample_token).1
  = Throws (JsString "no api key")
  ∧ res (run_handler no_client_backend valid_request sample_token).2 = new_response
  ∧ fetch_calls (trace (run_handler no_client_backend valid_request sample_token).2) = [].
Proof.
  apply (handler_propagates_setup_error no_client_backend valid_request sample_token
           "proof assistants" "en");
    [reflexivity | reflexivity | discriminate | reflexivity |].
  right. exists 7. split; reflexivity.
Defined.

Lemma handler_client_error_no_backend_witness :
  statusCode (res (run_handler good_backend post_request sample_token).2) = 405
  ∧ Forall (λ ev, is_backend_call ev = false)
           (trace (run_handler good_backend post_request sample_token).2).
Proof.
  assert (statusCode (res (run_handler good_backend post_request sample_token).2) = 405)
    as Hstatus by reflexivity.
  split; [exact Hstatus|].
  apply handler_client_error_no_backend. left. exact Hstatus.
Defined.

Lemma useReferences_key_witness :
  hook_fetches (useReferences "en" idle_swr PUndefined).2 = []
  ∧ hook_fetches (useReferences "en" idle_swr (PString "rocq")).2
    = [(get, "/api/references?query=rocq&lang=en")].
Proof.
  split.
  - destruct (useReferences_key "en" idle_swr PUndefined) as [Hfalsy _].
    apply Hfalsy. left. reflexivity.
  - destruct (useReferences_key "en" idle_swr (PString "rocq")) as [_ Htruthy].
    apply (Htruthy "rocq"). left. split; [reflexivity | discriminate].
Defined.

Lemma useReferences_key_per_locale_witness :
  ∃ key1 key2,
    swr_key <$> swr_calls (useReferences "en" idle_swr (PString "rocq")).2 = [Some key1]
    ∧ swr_key <$> swr_calls (useReferences "de" idle_swr (PString "rocq")).2 = [Some key2]
    ∧ key1 ≠ key2
    ∧ hook_fetches (useReferences "en" idle_swr (PString "rocq")).2 = [(get, key1)]
    ∧ hook_fetches (useReferences "de" idle_swr (PString "rocq")).2 = [(get, key2)].
Proof.
  apply (useReferences_key_per_locale idle_swr (PString "rocq") "en" "de");
    reflexivity || discriminate.
Defined.

Lemma ReferencesButton_props_witness :
  element_props (ReferencesButton small_button_props) !! "onClick" = Some (JsFunction 3)
  ∧ element_props (ReferencesButton small_button_props) !! "size" = Some (JsString "sm")
  ∧ element_props (ReferencesButton small_button_props) !! "variant"
    = Some (JsString "solid")
  ∧ element_props (ReferencesButton small_button_props) !! "colorScheme"
    = Some (JsString "blue").
Proof.
  destruct (ReferencesButton_props small_button_props)
    as (_ & HonClick & Hsize & Hvariant & _ & Hrest).
  split_and!; [exact HonClick | exact Hsize | exact Hvariant |].
  rewrite Hrest; [reflexivity|].
  rewrite !not_elem_of_cons. split_and!; discriminate || apply not_elem_of_nil.
Defined.

(** * Further properties of the route *)

(** Splits a goal about [run_handler w req token] into the eight ways a run
    can go, rewriting the run to its result in each. *)
Ltac handler_cases w req token :=
  let Hm := fresh "Hm" in
  let Hq := fresh "Hq" in
  let q := fresh "q" in
  let Hne := fresh "Hne" in
  destruct (decide (req_method req = Some "GET")) as [Hm|Hm];
  [ destruct (req_query req !! "query") as [[q|?]|] eqn:Hq;
    [ destruct (decide (q = "")) as [->|Hne];
      [ rewrite (run_bad_query w req token) by (done || congruence)
      | rewrite (run_valid w req token q) by done;
        let lang := fresh "lang" in
        let user := fresh "user" in
        let client := fresh "client" in
        destruct (getLanguageFromRequest w req) as [lang|?] eqn:?;
        [ destruct (getBackendUserCore w (sub token)) as [user|?] eqn:?;
          [ destruct (createApiClientFromUser w user) as [client|?] eqn:?;
            [ destruct (fetchReferences w client q lang) as [?|?] eqn:? | ]
          | ]
        | ] ]
    | rewrite (run_bad_query w req token) by (done || congruence)
    | rewrite (run_bad_query w req token) by (done || congruence) ]
  | rewrite (run_not_get w req token) by done ].

Section RouteCoverage.
Context {User Client : Type}.
Implicit Types (w : Collaborators User Client) (req : NextApiRequest) (token : JWT).

(** X1. Every run of the route body ends in one of two ways: it completes
    normally having sent a response whose status is 200, 400, 405 or 500, or
    it rejects and leaves the response object as it was handed in. *)
Theorem handler_responds_or_rejects w req token :
  ((run_handler w req token).1 = Returns ()
   ∧ is_Some (sent (res (run_handler w req token).2))
   ∧ statusCode (res (run_handler w req token).2) ∈ [200; 400; 405; 500])
  ∨ (∃ e, (run_handler w req token).1 = Throws e
          ∧ res (run_handler w req token).2 = new_response).
Proof.
  handler_cases w req token; cbn [fst snd res statusCode sent];
    first [ by right; eexists | left; split_and!; [done | by eexists | set_solver] ].
Qed.

(** X2. Status 405 is given exactly to the requests whose method is not GET,
    and the Allow header is set exactly for them. *)
Theorem handler_405_iff_not_get w req token :
  (statusCode (res (run_handler w req token).2) = 405 ↔ req_method req ≠ Some "GET")
  ∧ (headers (res (run_handler w req token).2) !! "Allow" = Some (HeaderList ["GET"])
     ↔ req_method req ≠ Some "GET").
Proof.
  handler_cases w req token; cbn [fst snd res statusCode headers new_response];
    rewrite ?lookup_empty, ?lookup_singleton_eq; split; split; (done || congruence).
Qed.

(** X3. Status 400 is given exactly to the GET requests whose [query] is not
    a non-empty string. *)
Theorem handler_400_iff_bad_query w req token :
  statusCode (res (run_handler w req token).2) = 400
  ↔ req_method req = Some "GET" ∧ ¬ ∃ q, accepted_query req q.
Proof.
  unfold accepted_query.
  handler_cases w req token; cbn [fst snd res statusCode new_response];
    (split; [try done | try by intros [? ?]]).
  all: try (intros _; split; [done|]; intros (? & ? & ?); congruence).
  all: intros [_ []]; eauto.
Qed.

(** X4. A response sent with status 200 always carries what the one
    [fetchReferences] call returned, made on the client built for the user
    resolved from the token subject, with the accepted query and the
    request's language. *)
Theorem handler_200_from_backend w req token body :
  statusCode (res (run_handler w req token).2) = 200 →
  sent (res (run_handler w req token).2) = Some body →
  ∃ q lang user client D,
    accepted_query req q
    ∧ getLanguageFromRequest w req = Returns lang
    ∧ getBackendUserCore w (sub token) = Returns user
    ∧ createApiClientFromUser w user = Returns client
    ∧ fetchReferences w client q lang = Returns D
    ∧ body = BodyJson D.
Proof.
  unfold accepted_query.
  handler_cases w req token; cbn [fst snd res statusCode sent new_response];
    intros Hstatus Hsent; try discriminate.
  injection Hsent as <-. eauto 15.
Qed.

(** X5. Status 500 is only ever the answer to a [fetchReferences] call that
    threw: a request is never answered 500 for another reason. *)
Theorem handler_500_from_fetch w req token :
  statusCode (res (run_handler w req token).2) = 500 →
  ∃ q lang user client e,
    accepted_query req q
    ∧ getLanguageFromRequest w req = Returns lang
    ∧ getBackendUserCore w (sub token) = Returns user
    ∧ createApiClientFromUser w user = Returns client
    ∧ fetchReferences w client q lang = Throws e.
Proof.
  unfold accepted_query.
  handler_cases w req token; cbn [fst snd res statusCode new_response];
    intros Hstatus; try discriminate.
  eauto 15.
Qed.
(** X6. Whenever the trace of a run holds a [fetchReferences] call, its
    receiver is the client built for the user resolved from the token
    subject and its arguments are the accepted query and the request's
    language: the route never queries the backend with anything else. *)
Theorem handler_fetch_call_arguments w req token client q lang :
  CallFetchReferences client q lang ∈ trace (run_handler w req token).2 →
  accepted_query req q
  ∧ getLanguageFromRequest w req = Returns lang
  ∧ ∃ user, getBackendUserCore w (sub token) = Returns user
            ∧ createApiClientFromUser w user = Returns client.
Proof.
  unfold accepted_query, query_log.
  handler_cases w req token; cbn [fst snd trace];
    rewrite ?elem_of_cons, elem_of_nil; intros Hin;
    repeat (destruct Hin as [Hin|Hin]; [discriminate Hin || (injection Hin as -> -> ->)|]);
    try done; eauto 10.
Qed.


(** X8. When [getLanguageFromRequest] throws on a GET request with an
    accepted query, the handler rejects with the thrown value, the response
    object is left as handed in, and no backend call is made: not even the
    user lookup. *)
Theorem handler_propagates_language_error w req token q e :
  req_method req = Some "GET" →
  accepted_query req q →
  getLanguageFromRequest w req = Throws e →
  (run_handler w req token).1 = Throws e
  ∧ res (run_handler w req token).2 = new_response
  ∧ Forall (λ ev, is_backend_call ev = false) (trace (run_handler w req token).2).
Proof.
  intros Hm [Hq Hne] Hlang.
  rewrite (run_valid w req token q) by done. rewrite Hlang.
  split_and!; [done..|]. by repeat constructor.
Qed.

(** X9. The console output of a run is limited to two things: the raw
    [query] entry of the request, and the payload that was sent with status
    200. A value thrown by a collaborator is never logged. *)
Theorem handler_log_contents w req token label arg :
  ConsoleLog label arg ∈ trace (run_handler w req token).2 →
  (label = "nextJS references: query" ∧ arg = query_to_js (req_query req !! "query"))
  ∨ (label = "nextJS references"
     ∧ statusCode (res (run_handler w req token).2) = 200
     ∧ sent (res (run_handler w req token).2) = Some (BodyJson arg)).
Proof.
  unfold query_log.
  handler_cases w req token; cbn [fst snd trace res statusCode sent];
    rewrite ?elem_of_cons, elem_of_nil; intros Hin;
    repeat (destruct Hin as [Hin|Hin]; [discriminate Hin || (injection Hin as -> ->)|]);
    try done; first [left; split; [done|congruence] | eauto 10].
Qed.

(** X10. The [query] entry is written to the console for every GET request
    before it is validated (so also when it is missing, empty or an array),
    and a request with another method leaves no trace at all. *)
Theorem handler_logs_query_first w req token :
  (req_method req = Some "GET" →
   ∃ rest, trace (run_handler w req token).2 = query_log req :: rest)
  ∧ (req_method req ≠ Some "GET" → trace (run_handler w req token).2 = []).
Proof.
  handler_cases w req token; cbn [fst snd trace]; split; done || by eexists.
Qed.
End RouteCoverage.

(** * Further properties of the hook *)

Lemma string_app_cons a (s t : string) : String a s +:+ t = String a (s +:+ t).
Proof. reflexivity. Qed.

Lemma string_app_assoc (s1 s2 s3 : string) : (s1 +:+ s2) +:+ s3 = s1 +:+ s2 +:+ s3.
Proof.
  induction s1 as [|a s1 IH]; [reflexivity|].
  by rewrite !string_app_cons, IH.
Qed.

Lemma string_app_to_list (s t : string) :
  Strings.String.list_ascii_of_string (s +:+ t) = (Strings.String.list_ascii_of_string s ++ Strings.String.list_ascii_of_string t)%list.
Proof.
  induction s as [|a s IH]; [reflexivity|].
  rewrite string_app_cons. cbn [Strings.String.list_ascii_of_string]. by rewrite IH.
Qed.

Lemma string_app_inv_tail (s1 s2 t : string) : s1 +:+ t = s2 +:+ t → s1 = s2.
Proof.
  intros Heq%(f_equal Strings.String.list_ascii_of_string).
  rewrite !string_app_to_list in Heq. apply app_inv_tail in Heq.
  rewrite <-(Strings.String.string_of_list_ascii_of_string s1), <-(Strings.String.string_of_list_ascii_of_string s2).
  by rewrite Heq.
Qed.

Lemma string_app_nonempty (s t : string) : s ≠ "" → s +:+ t ≠ "".
Proof. by destruct s. Qed.

(** X11. For one locale, two different non-empty query strings never share
    a cache key: equal keys mean equal queries. *)
Theorem useReferences_key_per_query (locale : string) (useSWR : SWRCall → SWRResponse)
    (s1 s2 : string) :
  s1 ≠ "" →
  s2 ≠ "" →
  swr_key <$> swr_calls (useReferences locale useSWR (PString s1)).2
  = swr_key <$> swr_calls (useReferences locale useSWR (PString s2)).2 →
  s1 = s2.
Proof.
  intros Hs1 Hs2.
  unfold useReferences. cbn [snd swr_calls omap fmap list_fmap swr_key to_boolean to_string].
  rewrite !bool_decide_eq_true_2 by done.
  intros [= Hkey]. by apply String.app_inj, string_app_inv_tail in Hkey.
Qed.

(** X12. The query is put into the key as it is, without escaping: a query
    that ends in "&lang=<b>" under locale [c] gets the very key of the query
    without that ending under the locale "<b>&lang=<c>". The key alone does
    not tell where the query stops and the locale begins. *)
Theorem useReferences_key_unescaped (useSWR : SWRCall → SWRResponse) (a b c : string) :
  a ≠ "" →
  swr_key <$> swr_calls (useReferences c useSWR (PString (a +:+ "&lang=" +:+ b))).2
  = swr_key <$> swr_calls (useReferences (b +:+ "&lang=" +:+ c) useSWR (PString a)).2.
Proof.
  intros Ha.
  unfold useReferences. cbn [snd swr_calls omap fmap list_fmap swr_key to_boolean to_string].
  rewrite !bool_decide_eq_true_2 by (done || by apply string_app_nonempty).
  by rewrite !string_app_assoc.
Qed.


(** * Further properties of the button *)

(** Every prop of the rendered element, by key. *)
Lemma ReferencesButton_lookup (p : gmap string JsValue) (key : string) :
  element_props (ReferencesButton p) !! key
  = if decide (key = "children") then Some (prop p "children")
    else if decide (key = "onClick") then Some (prop p "onClick")
    else match p !! key with
         | Some v => Some v
         | None => if decide (key = "variant") then Some (JsString "solid")
                   else if decide (key = "size") then Some (JsString "lg")
                   else None
         end.
Proof.
  unfold ReferencesButton. cbn [element_props].
  destruct (decide (key = "children")) as [->|Hchildren].
  { apply lookup_insert_eq. }
  rewrite lookup_insert_ne by done.
  destruct (decide (key = "onClick")) as [->|HonClick].
  { rewrite lookup_union_r by apply lookup_delete_eq. apply lookup_insert_eq. }
  rewrite lookup_union, !lookup_delete_ne, lookup_insert_ne by done.
  destruct (decide (key = "variant")) as [->|Hvariant].
  { rewrite lookup_insert_eq. by destruct (p !! "variant"). }
  rewrite lookup_insert_ne by done.
  destruct (decide (key = "size")) as [->|Hsize].
  { rewrite lookup_insert_eq. by destruct (p !! "size"). }
  rewrite lookup_insert_ne, lookup_empty by done.
  by destruct (p !! key).
Qed.

(** X14. Wrapping is idempotent: feeding the props of the rendered element
    back into [ReferencesButton] renders the same element again. *)
Theorem ReferencesButton_idempotent (p : gmap string JsValue) :
  ReferencesButton (element_props (ReferencesButton p)) = ReferencesButton p.
Proof.
  assert (element_props (ReferencesButton (element_props (ReferencesButton p)))
          = element_props (ReferencesButton p)) as Hprops.
  { apply map_eq. intros key.
    rewrite (ReferencesButton_lookup (element_props (ReferencesButton p)) key).
    unfold prop. rewrite !ReferencesButton_lookup.
    repeat case_decide; try done; simplify_eq;
      by match goal with |- context [p !! ?k] => destruct (p !! k) end. }
  revert Hprops. unfold ReferencesButton. cbn [element_props].
  intros Hprops. by f_equal.
Qed.


(** ** The further properties at sample inputs *)

Lemma handler_200_from_backend_witness :
  ∃ q lang user client D,
    accepted_query valid_request q
    ∧ getLanguageFromRequest good_backend valid_request = Returns lang
    ∧ getBackendUserCore good_backend (sub sample_token) = Returns user
    ∧ createApiClientFromUser good_backend user = Returns client
    ∧ fetchReferences good_backend client q lang = Returns D
    ∧ BodyJson sample_references = BodyJson D.
Proof.
  apply (handler_200_from_backend good_backend valid_request sample_token
           (BodyJson sample_references)); reflexivity.
Defined.

Lemma handler_500_from_fetch_witness :
  ∃ q lang user client e,
    accepted_query valid_request q
    ∧ getLanguageFromRequest failing_backend valid_request = Returns lang
    ∧ getBackendUserCore failing_backend (sub sample_token) = Returns user
    ∧ createApiClientFromUser failing_backend user = Returns client
    ∧ fetchReferences failing_backend client q lang = Throws e.
Proof.
  apply (handler_500_from_fetch failing_backend valid_request sample_token).
  reflexivity.
Defined.

Lemma handler_fetch_call_arguments_witness :
  accepted_query valid_request "proof assistants"
  ∧ getLanguageFromRequest good_backend valid_request = Returns "de"
  ∧ ∃ user, getBackendUserCore good_backend (sub sample_token) = Returns user
            ∧ createApiClientFromUser good_backend user = Returns 8.
Proof.
  apply (handler_fetch_call_arguments good_backend valid_request sample_token
           8 "proof assistants" "de").
  apply list_elem_of_lookup. exists 4. reflexivity.
Defined.

Lemma handler_propagates_language_error_witness :
  (run_handler no_language_backend valid_request sample_token).1
  = Throws (JsString "unsupported locale")
  ∧ res (run_handler no_language_backend valid_request sample_token).2 = new_response
  ∧ Forall (λ ev, is_backend_call ev = false)
           (trace (run_handler no_language_backend valid_request sample_token).2).
Proof.
  apply (handler_propagates_language_error no_language_backend valid_request
           sample_token "proof assistants").
  - reflexivity.
  - split; [reflexivity | discriminate].
  - reflexivity.
Defined.

Lemma handler_log_contents_witness :
  ("nextJS references" = "nextJS references: query"
   ∧ sample_references = query_to_js (req_query valid_request !! "query"))
  ∨ ("nextJS references" = "nextJS references"
     ∧ statusCode (res (run_handler good_backend valid_request sample_token).2) = 200
     ∧ sent (res (run_handler good_backend valid_request sample_token).2)
       = Some (BodyJson sample_references)).
Proof.
  apply (handler_log_contents good_backend valid_request sample_token).
  apply list_elem_of_lookup. exists 5. reflexivity.
Defined.

Lemma useReferences_key_per_query_witness :
  swr_key <$> swr_calls (useReferences "en" idle_swr (PString "rocq")).2
  = swr_key <$> swr_calls (useReferences "en" idle_swr (PString "rocq")).2
  ∧ "rocq" = "rocq".
Proof.
  split; [reflexivity|].
  apply (useReferences_key_per_query "en" idle_swr "rocq" "rocq");
    reflexivity || discriminate.
Defined.

Lemma useReferences_key_unescaped_witness :
  swr_key <$> swr_calls (useReferences "en" idle_swr (PString "rocq&lang=de")).2
  = swr_key <$> swr_calls (useReferences "de&lang=en" idle_swr (PString "rocq")).2.
Proof.
  apply (useReferences_key_unescaped idle_swr "rocq" "de" "en"). discriminate.
Defined.

